(** * The secret-backed certificate writer

    A shallow embedding of
    [vendor/sigs.k8s.io/controller-runtime/pkg/webhook/internal/cert/writer/secret.go]
    and the properties of its read / write / overwrite operations, its
    constructor and its bundle <-> secret conversions.

    Go values are modelled as follows.
    - A [[]byte] is a [ByteSlice]: Go tells the nil slice from an empty one,
      and so does the model.
    - A [map[string][]byte] that may be nil is an [option (gmap string ByteSlice)];
      indexing a map at a missing key gives the zero value, the nil slice.
    - A pointer or interface value that may be nil is an [option].
    - An interface (client, generator, io.Writer) is a record of functions
      over the state of the collaborator that implements it.
    - The operations run in a small monad that threads the state of the three
      collaborators, logs every call made to them, and can panic (nil
      dereference). *)

From Stdlib Require Import Strings.String Lists.List ZArith Strings.Byte.
From stdpp Require Import base option list strings gmap.

Local Set Warnings "-register-all".

(** ** Go data *)

Inductive ByteSlice : Type :=
| NilSlice
| Slice (bs : list byte).

Definition len (b : ByteSlice) : nat :=
  match b with
  | NilSlice => 0
  | Slice bs => length bs
  end.

(** [m[k]] on a Go map: the zero value when the key is missing. *)
Definition index (m : gmap string ByteSlice) (k : string) : ByteSlice :=
  default NilSlice (m !! k).

(** k8s.io/apimachinery/pkg/types *)
Module types.
Record NamespacedName : Type := { Namespace : string; Name : string }.
End types.

(** k8s.io/apimachinery/pkg/apis/meta/v1: the part of ObjectMeta and of the
    status reasons this file touches. *)
Module metav1.
Record ObjectMeta : Type := { Namespace : string; Name : string }.

Inductive StatusReason : Type :=
| StatusReasonUnknown
| StatusReasonNotFound
| StatusReasonAlreadyExists
| StatusReasonConflict
| StatusReasonForbidden
| StatusReasonTimeout
| StatusReasonInternalError.
End metav1.

(** k8s.io/api/core/v1: a Secret, with its metadata and its Data map. The
    fields of the Go struct that this file never sets or reads stay at their
    zero value throughout and are left out. *)
Module corev1.
Record Secret : Type :=
  { ObjectMeta : metav1.ObjectMeta;
    Data : option (gmap string ByteSlice) }.

(** [corev1.Secret{}] *)
Definition zero : Secret :=
  {| ObjectMeta := {| metav1.Namespace := ""; metav1.Name := "" |};
     Data := None |}.
End corev1.

(** ** Errors

    Modelled from the spec: [notFoundError] and [alreadyExistError] are
    declared in the package's certwriter.go; they are the not-found and the
    already-exists error kinds of this package, each wrapping the backend
    error it classifies (possibly nil). [errorString] is what [errors.New]
    builds and [StatusError] is an API status error carrying its reason. *)
Inductive error : Type :=
| errorString (s : string)
| StatusError (reason : metav1.StatusReason) (message : string)
| notFoundError (err : option error)
| alreadyExistError (err : option error).

(** The two error kinds of the package. *)
Definition isNotFound (err : option error) : bool :=
  match err with
  | Some (notFoundError _) => true
  | _ => false
  end.

Definition isAlreadyExists (err : option error) : bool :=
  match err with
  | Some (alreadyExistError _) => true
  | _ => false
  end.

(** k8s.io/apimachinery/pkg/api/errors: classification by status reason; an
    error that carries no API status, and nil, have the unknown reason. *)
Module apierrors.
Definition ReasonForError (err : option error) : metav1.StatusReason :=
  match err with
  | Some (StatusError reason _) => reason
  | _ => metav1.StatusReasonUnknown
  end.

Definition IsNotFound (err : option error) : bool :=
  match ReasonForError err with
  | metav1.StatusReasonNotFound => true
  | _ => false
  end.

Definition IsAlreadyExists (err : option error) : bool :=
  match ReasonForError err with
  | metav1.StatusReasonAlreadyExists => true
  | _ => false
  end.
End apierrors.

(** ** Interfaces of the collaborators

    Each is a record of functions over the state of its implementation. *)

(** sigs.k8s.io/controller-runtime/pkg/client: a client on a backend with
    state [St]. [Get] receives the object to fill and returns it as the
    backend left it; [Create] and [Update] receive the pointer they are
    given. *)
Module client.
Record Client (St : Type) : Type :=
  { Get : types.NamespacedName -> corev1.Secret -> St ->
          (corev1.Secret * option error) * St;
    Create : option corev1.Secret -> St -> option error * St;
    Update : option corev1.Secret -> St -> option error * St }.
Arguments Get {St}.
Arguments Create {St}.
Arguments Update {St}.
End client.

(** Modelled from the spec: the declarations of [generator.Artifacts] and of
    the [generator.CertGenerator] interface are in the generator package. An
    artifact bundle is the three byte sequences CACert, Cert and Key, the
    three fields this file reads and writes; a generator has the one
    operation Generate, from a DNS name to a bundle pointer and an error. *)
Module generator.
Record Artifacts : Type :=
  { Key : ByteSlice;
    Cert : ByteSlice;
    CACert : ByteSlice }.

Record CertGenerator (G : Type) : Type :=
  { Generate : string -> G -> (option Artifacts * option error) * G }.
Arguments Generate {G}.
End generator.

(** io.Writer *)
Module io.
Record Writer (K : Type) : Type :=
  { Write : ByteSlice -> K -> (Z * option error) * K }.
Arguments Write {K}.
End io.

(** Constants of the package, declared in certwriter.go: the names of the
    three entries of the secret. The map literal of [certsToSecret] has them
    as keys, which Go accepts only if they differ pairwise. *)
Class WellKnownNames : Type :=
  { CACertName : string;
    ServerKeyName : string;
    ServerCertName : string }.

Definition names_distinct {names : WellKnownNames} : Prop :=
  CACertName ≠ ServerKeyName ∧
  CACertName ≠ ServerCertName ∧
  ServerKeyName ≠ ServerCertName.

(** What the file imports from elsewhere: [yaml.Marshal] (on the secret
    pointer it is given; a function of its argument alone), the default
    generator and the standard output. *)
Class Imports (G K : Type) : Type :=
  { yaml_Marshal : option corev1.Secret -> ByteSlice * option error;
    SelfSignedCertGenerator : generator.CertGenerator G;
    os_Stdout : io.Writer K }.

(** ** Conversions *)

Section Conversions.
Context {names : WellKnownNames}.

Definition secretToCerts (secret : corev1.Secret) : option generator.Artifacts :=
  match corev1.Data secret with
  | None => None
  | Some data =>
      Some {| generator.CACert := index data CACertName;
              generator.Cert := index data ServerCertName;
              generator.Key := index data ServerKeyName |}
  end.

(** The map literal inserts its entries in the order they are written. *)
Definition certsToSecret (certs : generator.Artifacts)
    (sec : types.NamespacedName) : corev1.Secret :=
  {| corev1.ObjectMeta :=
       {| metav1.Namespace := types.Namespace sec;
          metav1.Name := types.Name sec |};
     corev1.Data :=
       Some (<[ServerCertName := generator.Cert certs]>
             (<[ServerKeyName := generator.Key certs]>
              (<[CACertName := generator.CACert certs]> ∅))) |}.

(** The shape of a record of this core: the namespace and name of the
    identifier, and a data map that is present and has the three
    well-known names, and nothing else, as its keys. *)
Definition core_record (id : types.NamespacedName) (r : corev1.Secret) : Prop :=
  metav1.Namespace (corev1.ObjectMeta r) = types.Namespace id ∧
  metav1.Name (corev1.ObjectMeta r) = types.Name id ∧
  ∃ data : gmap string ByteSlice,
    corev1.Data r = Some data ∧
    dom data = {[CACertName; ServerKeyName; ServerCertName]} ∧
    size data = 3.
End Conversions.

(** ** The world of the collaborators, and the monad of the operations *)

(** A call made to a collaborator, with the arguments it was given. *)
Inductive Call : Type :=
| CallGenerate (dnsName : string)
| CallGet (key : types.NamespacedName)
| CallCreate (obj : option corev1.Secret)
| CallUpdate (obj : option corev1.Secret)
| CallMarshal (obj : option corev1.Secret)
| CallWrite (p : ByteSlice).

(** Is the call one to the store? *)
Definition store_call (c : Call) : bool :=
  match c with
  | CallGet _ | CallCreate _ | CallUpdate _ => true
  | CallGenerate _ | CallMarshal _ | CallWrite _ => false
  end.

Definition generate_call (c : Call) : bool :=
  match c with
  | CallGenerate _ => true
  | _ => false
  end.

Definition sink_call (c : Call) : bool :=
  match c with
  | CallWrite _ => true
  | _ => false
  end.

(** The record a call hands over, for the calls that take one. *)
Definition record_of (c : Call) : option (option corev1.Secret) :=
  match c with
  | CallCreate obj | CallUpdate obj | CallMarshal obj => Some obj
  | CallGenerate _ | CallGet _ | CallWrite _ => None
  end.

(** Is the call one of the dry-run path: a serialization, or a write to the
    sink? *)
Definition dryrun_call (c : Call) : bool :=
  match c with
  | CallMarshal _ | CallWrite _ => true
  | CallGenerate _ | CallGet _ | CallCreate _ | CallUpdate _ => false
  end.

(** The backend behind the client, the generator and the dry-run sink each
    have a state of their own, which the other two cannot reach: a call to
    one collaborator leaves the state of the others as it was. [calls] logs
    the calls in the order made. *)
Record World (St G K : Type) : Type :=
  { store : St;
    gen : G;
    sink : K;
    calls : list Call }.
Arguments store {St G K}.
Arguments gen {St G K}.
Arguments sink {St G K}.
Arguments calls {St G K}.

(** An operation returns, or panics on a nil dereference; either way it
    leaves a world behind. *)
Inductive Outcome (W A : Type) : Type :=
| Returned (a : A) (w : W)
| Panicked (w : W).
Arguments Returned {W A}.
Arguments Panicked {W A}.

Definition world_of {W A : Type} (o : Outcome W A) : W :=
  match o with
  | Returned _ w => w
  | Panicked w => w
  end.

Definition Op (St G K A : Type) : Type :=
  World St G K -> Outcome (World St G K) A.

Section Monad.
Context {St G K : Type}.

Definition ret {A : Type} (a : A) : Op St G K A :=
  fun w => Returned a w.

Definition bind {A B : Type} (m : Op St G K A) (k : A -> Op St G K B) :
    Op St G K B :=
  fun w =>
    match m w with
    | Returned a w' => k a w'
    | Panicked w' => Panicked w'
    end.

Definition panic {A : Type} : Op St G K A :=
  fun w => Panicked w.

(** Following a pointer, or calling a method of an interface value. *)
Definition deref {A : Type} (p : option A) : Op St G K A :=
  match p with
  | Some a => ret a
  | None => panic
  end.

(** The world after a call: the call is logged, and the collaborator that
    served it has moved to a new state. *)
Definition logged (c : Call) (w : World St G K) : World St G K :=
  {| store := store w; gen := gen w; sink := sink w;
     calls := calls w ++ [c] |}.

Definition set_store (st : St) (w : World St G K) : World St G K :=
  {| store := st; gen := gen w; sink := sink w; calls := calls w |}.

Definition set_gen (g : G) (w : World St G K) : World St G K :=
  {| store := store w; gen := g; sink := sink w; calls := calls w |}.

Definition set_sink (k : K) (w : World St G K) : World St G K :=
  {| store := store w; gen := gen w; sink := k; calls := calls w |}.

Definition call_Generate (g : generator.CertGenerator G) (dnsName : string) :
    Op St G K (option generator.Artifacts * option error) :=
  fun w =>
    let '(r, g') := generator.Generate g dnsName (gen w) in
    Returned r (set_gen g' (logged (CallGenerate dnsName) w)).

Definition call_Get (c : client.Client St) (key : types.NamespacedName)
    (obj : corev1.Secret) : Op St G K (corev1.Secret * option error) :=
  fun w =>
    let '(r, st') := client.Get c key obj (store w) in
    Returned r (set_store st' (logged (CallGet key) w)).

Definition call_Create (c : client.Client St) (obj : option corev1.Secret) :
    Op St G K (option error) :=
  fun w =>
    let '(r, st') := client.Create c obj (store w) in
    Returned r (set_store st' (logged (CallCreate obj) w)).

Definition call_Update (c : client.Client St) (obj : option corev1.Secret) :
    Op St G K (option error) :=
  fun w =>
    let '(r, st') := client.Update c obj (store w) in
    Returned r (set_store st' (logged (CallUpdate obj) w)).

Definition call_Marshal {imports : Imports G K} (obj : option corev1.Secret) :
    Op St G K (ByteSlice * option error) :=
  fun w => Returned (yaml_Marshal obj) (logged (CallMarshal obj) w).

Definition call_Write (o : io.Writer K) (p : ByteSlice) :
    Op St G K (Z * option error) :=
  fun w =>
    let '(r, k') := io.Write o p (sink w) in
    Returned r (set_sink k' (logged (CallWrite p) w)).
End Monad.

(** The calls an operation makes when run from [w]. *)
Definition trace {St G K A : Type} (m : Op St G K A) (w : World St G K) :
    list Call :=
  drop (length (calls w)) (calls (world_of (m w))).

Declare Scope op_scope.
Delimit Scope op_scope with op.
Notation "x <- m ;; k" := (bind m (fun x => k))
  (at level 100, m at next level, right associativity) : op_scope.

(** ** The writer *)

(** SecretCertWriterOptions is options for constructing a secretCertWriter. *)
Record SecretCertWriterOptions (St G K : Type) : Type :=
  { Client : option (client.Client St);
    CertGenerator : option (generator.CertGenerator G);
    Secret : option types.NamespacedName;
    Writer : option (io.Writer K) }.
Arguments Client {St G K}.
Arguments CertGenerator {St G K}.
Arguments Secret {St G K}.
Arguments Writer {St G K}.

(** secretCertWriter: the options it was built from ([ops], the embedded
    pointer, which is the address of the constructor's own copy), the DNS
    name and the dry-run flag. *)
Record secretCertWriter (St G K : Type) : Type :=
  { ops : SecretCertWriterOptions St G K;
    dnsName : string;
    dryrun : bool }.
Arguments ops {St G K}.
Arguments dnsName {St G K}.
Arguments dryrun {St G K}.

Section Writer.
Context {St G K : Type} {names : WellKnownNames} {imports : Imports G K}.

Local Open Scope op_scope.

Abbreviation Options := (SecretCertWriterOptions St G K).
Abbreviation writer := (secretCertWriter St G K).
Abbreviation Result := (option generator.Artifacts * option error)%type.

Definition setDefaults (ops : Options) : Options :=
  let ops :=
    match CertGenerator ops with
    | None =>
        {| Client := Client ops;
           CertGenerator := Some SelfSignedCertGenerator;
           Secret := Secret ops;
           Writer := Writer ops |}
    | Some _ => ops
    end in
  match Writer ops with
  | None =>
      {| Client := Client ops;
         CertGenerator := CertGenerator ops;
         Secret := Secret ops;
         Writer := Some os_Stdout |}
  | Some _ => ops
  end.

Definition validate (ops : Options) : option error :=
  match Client ops with
  | None => Some (errorString "client must be set in SecretCertWriterOptions")
  | Some _ =>
      match Secret ops with
      | None => Some (errorString "secret must be set in SecretCertWriterOptions")
      | Some _ => None
      end
  end.

(** NewSecretCertWriter constructs a CertWriter that persists the
    certificate in a k8s secret. *)
Definition NewSecretCertWriter (ops : Options) : option writer * option error :=
  let ops := setDefaults ops in
  let err := validate ops in
  match err with
  | Some _ => (None, err)
  | None => (Some {| ops := ops; dnsName := ""; dryrun := false |}, None)
  end.

(** EnsureCert sets the two call-scoped fields of the writer and hands over
    to [handleCommon], which is not part of this file and is taken as an
    argument; the writer as the call leaves it is returned with the result. *)
Definition EnsureCert {R : Type} (handleCommon : string -> writer -> Op St G K R)
    (s : writer) (dnsName' : string) (dryrun' : bool) : Op St G K (writer * R) :=
  let s := {| ops := ops s; dnsName := dnsName s; dryrun := dryrun' |} in
  let s := {| ops := ops s; dnsName := dnsName'; dryrun := dryrun s |} in
  r <- handleCommon (dnsName s) s ;;
  ret (s, r).

Definition buildSecret (s : writer) :
    Op St G K (option corev1.Secret * option generator.Artifacts * option error) :=
  g <- deref (CertGenerator (ops s)) ;;
  r <- call_Generate g (dnsName s) ;;
  let '(certs, err) := r in
  match err with
  | Some _ => ret (None, None, err)
  | None =>
      sec <- deref (Secret (ops s)) ;;
      c <- deref certs ;;
      let secret := certsToSecret c sec in
      ret (Some secret, certs, err)
  end.

Definition dryrunWrite (s : writer) (secret : option corev1.Secret) :
    Op St G K (option error) :=
  r <- call_Marshal secret ;;
  let '(sec, err) := r in
  match err with
  | Some _ => ret err
  | None =>
      o <- deref (Writer (ops s)) ;;
      r <- call_Write o sec ;;
      let '(_, err) := r in
      ret err
  end.

Definition write (s : writer) : Op St G K Result :=
  r <- buildSecret s ;;
  let '(secret, certs, err) := r in
  match err with
  | Some _ => ret (None, err)
  | None =>
      if dryrun s then
        err <- dryrunWrite s secret ;;
        ret (certs, err)
      else
        c <- deref (Client (ops s)) ;;
        err <- call_Create c secret ;;
        if apierrors.IsAlreadyExists err
        then ret (None, Some (alreadyExistError err))
        else ret (certs, err)
  end.

Definition overwrite (s : writer) : Op St G K Result :=
  r <- buildSecret s ;;
  let '(secret, certs, err) := r in
  match err with
  | Some _ => ret (None, err)
  | None =>
      if dryrun s then
        err <- dryrunWrite s secret ;;
        ret (certs, err)
      else
        c <- deref (Client (ops s)) ;;
        err <- call_Update c secret ;;
        ret (certs, err)
  end.

Definition read (s : writer) : Op St G K Result :=
  if dryrun s then ret (None, Some (notFoundError None))
  else
    let secret := corev1.zero in
    c <- deref (Client (ops s)) ;;
    key <- deref (Secret (ops s)) ;;
    r <- call_Get c key secret ;;
    let '(secret, err) := r in
    if apierrors.IsNotFound err
    then ret (None, Some (notFoundError err))
    else ret (secretToCerts secret, err).

(** Inject sets the ownerReference in the secret: a stub that returns nil. *)
Definition Inject {Object : Type} (s : writer) (objs : list Object) :
    Op St G K (option error) :=
  ret None.

(** What the dry-run path of write and of overwrite comes to, once the
    generator has returned [certs] and [secret] has been built from them:
    the outcome of serializing and of writing to the sink, from [w1]. *)
Definition dryrun_outcome (o : io.Writer K) (certs : generator.Artifacts)
    (secret : corev1.Secret) (w1 : World St G K) :
    Outcome (World St G K) (option generator.Artifacts * option error) :=
  let w2 := logged (CallMarshal (Some secret)) w1 in
  match yaml_Marshal (Some secret) with
  | (_, Some e) => Returned (Some certs, Some e) w2
  | (sec, None) =>
      let '((_, err), k') := io.Write o sec (sink w2) in
      Returned (Some certs, err) (set_sink k' (logged (CallWrite sec) w2))
  end.

(** [obj] is a record built by [certsToSecret] for the identifier of [s]. *)
Definition built_by (s : writer) (obj : option corev1.Secret) : Prop :=
  ∃ id certs,
    Secret (ops s) = Some id ∧ obj = Some (certsToSecret certs id).
End Writer.

(** ** The backend as the operations see it *)

(** The identifier a record is stored under. *)
Definition key_of (obj : corev1.Secret) : types.NamespacedName :=
  {| types.Namespace := metav1.Namespace (corev1.ObjectMeta obj);
     types.Name := metav1.Name (corev1.ObjectMeta obj) |}.

Section Backend.
Context {St : Type}.

(** [holds st id] is the record the backend in state [st] has at [id]. A
    backend refuses to create over a record it holds, reporting
    already-exists and keeping the record; it reports not-found when asked
    for a record it does not hold. *)
Definition refuses_existing (c : client.Client St)
    (holds : St -> types.NamespacedName -> option corev1.Secret) : Prop :=
  ∀ st obj r,
    holds st (key_of obj) = Some r →
    ∃ e st',
      client.Create c (Some obj) st = (Some e, st') ∧
      apierrors.IsAlreadyExists (Some e) = true ∧
      holds st' (key_of obj) = Some r.

Definition reports_missing (c : client.Client St)
    (holds : St -> types.NamespacedName -> option corev1.Secret) : Prop :=
  ∀ st key obj,
    holds st key = None →
    ∃ obj' e st',
      client.Get c key obj st = ((obj', Some e), st') ∧
      apierrors.IsNotFound (Some e) = true.

(** A backend keeps what it accepts: after a Create or an Update that
    reports no error, it holds the record it was given. It returns what it
    holds: a Get of a held record fills the object with it and reports no
    error. *)
Definition keeps_created (c : client.Client St)
    (holds : St -> types.NamespacedName -> option corev1.Secret) : Prop :=
  ∀ st obj st',
    client.Create c (Some obj) st = (None, st') →
    holds st' (key_of obj) = Some obj.

Definition keeps_updated (c : client.Client St)
    (holds : St -> types.NamespacedName -> option corev1.Secret) : Prop :=
  ∀ st obj st',
    client.Update c (Some obj) st = (None, st') →
    holds st' (key_of obj) = Some obj.

Definition returns_held (c : client.Client St)
    (holds : St -> types.NamespacedName -> option corev1.Secret) : Prop :=
  ∀ st key obj r,
    holds st key = Some r →
    ∃ st', client.Get c key obj st = ((r, None), st').
End Backend.

(** A writer whose four options are set: what the constructor returns. *)
Record configured {St G K : Type} (s : secretCertWriter St G K)
    (c : client.Client St) (g : generator.CertGenerator G)
    (id : types.NamespacedName) (o : io.Writer K) : Prop :=
  { configured_Client : Client (ops s) = Some c;
    configured_CertGenerator : CertGenerator (ops s) = Some g;
    configured_Secret : Secret (ops s) = Some id;
    configured_Writer : Writer (ops s) = Some o }.

(** The conflict-surfacing property as the specification words it, at a
    writer [s] in a world [w]: nothing is asked of the generator. *)
Definition conflict_surfacing_as_stated {St G K : Type}
    {names : WellKnownNames} {imports : Imports G K}
    (s : secretCertWriter St G K) (w : World St G K)
    (c : client.Client St) (g : generator.CertGenerator G)
    (id : types.NamespacedName) (o : io.Writer K)
    (holds : St → types.NamespacedName → option corev1.Secret) : Prop :=
  configured s c g id o →
  dryrun s = false →
  refuses_existing c holds →
  is_Some (holds (store w) id) →
  ∃ e w',
    write s w = Returned (None, Some e) w' ∧
    isAlreadyExists (Some e) = true ∧
    holds (store w') id = holds (store w) id.

(** ** Test doubles

    Small implementations of the collaborators, to run the operations on. *)
Module fake.
(** Modelled from the spec: the RecordStore backend is an external
    collaborator. This one keeps its records in a map keyed by namespace
    and name: get of a missing record reports not-found, create over a
    held record reports already-exists and changes nothing, update of a
    missing record reports not-found, update of a held one replaces it. *)
Abbreviation Store := (gmap (string * string) corev1.Secret).

Definition slot (key : types.NamespacedName) : string * string :=
  (types.Namespace key, types.Name key).

Definition holds (st : Store) (key : types.NamespacedName) :
    option corev1.Secret :=
  st !! slot key.

Definition Get (key : types.NamespacedName) (obj : corev1.Secret)
    (st : Store) : (corev1.Secret * option error) * Store :=
  match holds st key with
  | Some r => ((r, None), st)
  | None => ((obj, Some (StatusError metav1.StatusReasonNotFound "not found")), st)
  end.

Definition Create (obj : option corev1.Secret) (st : Store) :
    option error * Store :=
  match obj with
  | None => (Some (errorString "nil object"), st)
  | Some r =>
      match holds st (key_of r) with
      | Some _ =>
          (Some (StatusError metav1.StatusReasonAlreadyExists "already exists"), st)
      | None => (None, <[slot (key_of r) := r]> st)
      end
  end.

Definition Update (obj : option corev1.Secret) (st : Store) :
    option error * Store :=
  match obj with
  | None => (Some (errorString "nil object"), st)
  | Some r =>
      match holds st (key_of r) with
      | Some _ => (None, <[slot (key_of r) := r]> st)
      | None => (Some (StatusError metav1.StatusReasonNotFound "not found"), st)
      end
  end.

Definition client : client.Client Store :=
  {| client.Get := Get; client.Create := Create; client.Update := Update |}.

(** A generator that hands out the same bundle every time and counts its
    calls, and one that always fails. *)
Definition fixed (a : generator.Artifacts) : generator.CertGenerator nat :=
  {| generator.Generate := fun _ n => ((Some a, None), S n) |}.

Definition failing (e : error) : generator.CertGenerator nat :=
  {| generator.Generate := fun _ n => ((None, Some e), S n) |}.

(** A sink that keeps what is written to it. *)
Definition buffer : io.Writer (list ByteSlice) :=
  {| io.Write := fun p k => ((Z.of_nat (len p), None), k ++ [p]) |}.

Definition bytes (s : string) : ByteSlice := Slice (list_byte_of_string s).

Definition payload (b : ByteSlice) : list byte :=
  match b with
  | NilSlice => []
  | Slice bs => bs
  end.

(** A rendering of a secret: its namespace and name, then its entries. *)
Definition render (obj : option corev1.Secret) : ByteSlice * option error :=
  match obj with
  | None => (bytes "null", None)
  | Some r =>
      let meta := corev1.ObjectMeta r in
      let head :=
        list_byte_of_string
          ("namespace: " +:+ metav1.Namespace meta +:+ " name: " +:+ metav1.Name meta) in
      let entry (kv : string * ByteSlice) :=
        list_byte_of_string (" " +:+ fst kv +:+ ": ") ++ payload (snd kv) in
      let body :=
        match corev1.Data r with
        | None => []
        | Some data => concat (map entry (map_to_list data))
        end in
      (Slice (head ++ body), None)
  end.

#[global] Instance names : WellKnownNames :=
  {| CACertName := "ca-cert.pem";
     ServerKeyName := "key.pem";
     ServerCertName := "cert.pem" |}.

#[global] Instance imports : Imports nat (list ByteSlice) :=
  {| yaml_Marshal := render;
     SelfSignedCertGenerator := fixed {| generator.Key := bytes "self-key";
                                         generator.Cert := bytes "self-cert";
                                         generator.CACert := bytes "self-ca" |};
     os_Stdout := buffer |}.

(** Imports whose serializer always fails. *)
Definition broken : Imports nat (list ByteSlice) :=
  {| yaml_Marshal := fun _ => (NilSlice, Some (errorString "cannot marshal"));
     SelfSignedCertGenerator := SelfSignedCertGenerator (Imports := imports);
     os_Stdout := buffer |}.

(** The scenario of the spec. *)
Definition id : types.NamespacedName :=
  {| types.Namespace := "ns"; types.Name := "webhook-cert" |}.

Definition bundle : generator.Artifacts :=
  {| generator.Key := bytes "KEY";
     generator.Cert := bytes "CERT";
     generator.CACert := bytes "CA" |}.

Definition bundle2 : generator.Artifacts :=
  {| generator.Key := bytes "KEY2";
     generator.Cert := NilSlice;
     generator.CACert := Slice [] |}.

Definition options (g : generator.CertGenerator nat) :
    SecretCertWriterOptions Store nat (list ByteSlice) :=
  {| Client := Some client;
     CertGenerator := Some g;
     Secret := Some id;
     Writer := Some buffer |}.

Definition writer (g : generator.CertGenerator nat) (dry : bool) :
    secretCertWriter Store nat (list ByteSlice) :=
  {| ops := options g; dnsName := "svc.ns.svc"; dryrun := dry |}.

Definition world (st : Store) : World Store nat (list ByteSlice) :=
  {| store := st; gen := 0; sink := []; calls := [] |}.

(** A backend that already holds a record at [id]. *)
Definition taken : Store := {[ slot id := certsToSecret bundle id ]}.
End fake.

(** ** Properties of the conversions *)

Section ConversionProperties.
Context {names : WellKnownNames}.

Lemma index_insert_eq (m : gmap string ByteSlice) (k : string) (b : ByteSlice) :
  index (<[k := b]> m) k = b.
Proof. unfold index. by rewrite lookup_insert_eq. Qed.

Lemma index_insert_ne (m : gmap string ByteSlice) (k k' : string) (b : ByteSlice) :
  k ≠ k' → index (<[k := b]> m) k' = index m k'.
Proof. intros Hne. unfold index. by rewrite lookup_insert_ne. Qed.

Lemma index_empty (k : string) : index ∅ k = NilSlice.
Proof. unfold index. by rewrite lookup_empty. Qed.

(** C1. Round trip: a bundle converted to a secret under any identifier and
    converted back is the bundle itself; the CA certificate, the server
    certificate and the server key are each preserved, a nil slice as nil
    and an empty one as empty. *)
Theorem secretToCerts_certsToSecret :
  names_distinct →
  ∀ (B : generator.Artifacts) (I : types.NamespacedName),
    secretToCerts (certsToSecret B I) = Some B.
Proof.
  intros (Hck & Hcc & Hkc) [key cert cacert] I.
  unfold secretToCerts, certsToSecret; simpl.
  f_equal. f_equal.
  - rewrite index_insert_ne by done. apply index_insert_eq.
  - apply index_insert_eq.
  - rewrite index_insert_ne by done.
    rewrite index_insert_ne by done.
    apply index_insert_eq.
Qed.

(** C5. Absent-record law: the conversion of a secret is absent exactly when
    the data map of the secret is absent (nil). A secret whose map is
    present and empty converts to a bundle of three nil slices, and one
    whose three well-known entries are empty byte sequences converts to a
    bundle of three empty byte sequences: bundles that are not absent and
    whose fields have length zero. *)
Theorem secretToCerts_absent_iff :
  (∀ secret : corev1.Secret,
      secretToCerts secret = None ↔ corev1.Data secret = None) ∧
  (∀ meta : metav1.ObjectMeta,
      secretToCerts {| corev1.ObjectMeta := meta; corev1.Data := Some ∅ |} =
        Some {| generator.Key := NilSlice;
                generator.Cert := NilSlice;
                generator.CACert := NilSlice |}) ∧
  (∀ (meta : metav1.ObjectMeta) (m : gmap string ByteSlice),
      secretToCerts
        {| corev1.ObjectMeta := meta;
           corev1.Data :=
             Some (<[ServerCertName := Slice []]>
                   (<[ServerKeyName := Slice []]>
                    (<[CACertName := Slice []]> m))) |} =
        Some {| generator.Key := Slice [];
                generator.Cert := Slice [];
                generator.CACert := Slice [] |}) ∧
  len NilSlice = 0 ∧ len (Slice []) = 0.
Proof.
  split; [|split; [|split; [|done]]].
  - intros [meta [data|]]; unfold secretToCerts; simpl; split; congruence.
  - intros meta. unfold secretToCerts; simpl. by rewrite !index_empty.
  - intros meta m. unfold secretToCerts, index; simpl.
    f_equal. f_equal.
    + rewrite lookup_insert. case_decide; [done|].
      by rewrite lookup_insert_eq.
    + by rewrite lookup_insert_eq.
    + rewrite lookup_insert. case_decide; [done|].
      rewrite lookup_insert. case_decide; [done|].
      by rewrite lookup_insert_eq.
Qed.

Lemma certsToSecret_core_record certs id :
  names_distinct → core_record id (certsToSecret certs id).
Proof.
  intros (Hck & Hcc & Hkc).
  split; [done|]. split; [done|].
  eexists. split; [done|]. split.
  - rewrite !dom_insert_L, dom_empty_L.
    apply set_eq; intros x.
    rewrite !elem_of_union, !elem_of_singleton, elem_of_empty. tauto.
  - rewrite !map_size_insert_None, map_size_empty; [done|..].
    + apply lookup_empty.
    + by rewrite lookup_insert_ne.
    + rewrite lookup_insert_ne by done. by rewrite lookup_insert_ne.
Qed.
(** *** Further properties of the conversions *)

Lemma secretToCerts_built certs id :
  names_distinct → secretToCerts (certsToSecret certs id) = Some certs.
Proof.
  intros (Hck & Hcc & Hkc). destruct certs as [key cert cacert].
  unfold secretToCerts, certsToSecret; simpl.
  rewrite index_insert_eq.
  rewrite (index_insert_ne _ ServerCertName ServerKeyName) by done.
  rewrite index_insert_eq.
  rewrite (index_insert_ne _ ServerCertName CACertName) by done.
  rewrite (index_insert_ne _ ServerKeyName CACertName) by done.
  by rewrite index_insert_eq.
Qed.


(** X2. secretToCerts reads the three well-known entries and nothing else:
    the metadata of the secret, and an entry under any other key, added,
    replaced or removed, do not change the bundle. *)
Theorem secretToCerts_ignores_rest (meta meta' : metav1.ObjectMeta)
    (m : gmap string ByteSlice) (k : string) (b : ByteSlice) :
  k ≠ CACertName → k ≠ ServerKeyName → k ≠ ServerCertName →
  secretToCerts {| corev1.ObjectMeta := meta;
                   corev1.Data := Some (<[k := b]> m) |} =
    secretToCerts {| corev1.ObjectMeta := meta'; corev1.Data := Some m |} ∧
  secretToCerts {| corev1.ObjectMeta := meta;
                   corev1.Data := Some (delete k m) |} =
    secretToCerts {| corev1.ObjectMeta := meta'; corev1.Data := Some m |}.
Proof.
  intros Hca Hkey Hcert. unfold secretToCerts, index; simpl.
  split.
  - by rewrite !lookup_insert_ne.
  - by rewrite !lookup_delete_ne.
Qed.


(** X4. certsToSecret loses nothing: two conversions give the same record
    only for the same bundle and the same identifier. *)
Theorem certsToSecret_injective (B B' : generator.Artifacts)
    (I I' : types.NamespacedName) :
  names_distinct →
  certsToSecret B I = certsToSecret B' I' →
  B = B' ∧ I = I'.
Proof.
  intros Hnames Heq. split.
  - apply (f_equal secretToCerts) in Heq.
    rewrite !secretToCerts_built in Heq by done. by injection Heq.
  - apply (f_equal key_of) in Heq.
    by destruct I, I'.
Qed.
End ConversionProperties.

(** ** Properties of the operations *)

Section OperationProperties.
Context {St G K : Type} {names : WellKnownNames} {imports : Imports G K}.

Implicit Types (s : secretCertWriter St G K) (w : World St G K).
Implicit Types (c : client.Client St) (g : generator.CertGenerator G).
Implicit Types (id : types.NamespacedName) (o : io.Writer K).

Lemma trace_intro {A : Type} (m : Op St G K A) w (t : list Call) :
  calls (world_of (m w)) = calls w ++ t → trace m w = t.
Proof. intros Heq. unfold trace. rewrite Heq. apply drop_app_length. Qed.

Lemma key_of_certsToSecret certs id : key_of (certsToSecret certs id) = id.
Proof. by destruct id. Qed.

(** Unfolding the monad. *)
Ltac run :=
  unfold write, overwrite, read, buildSecret, dryrunWrite, bind, deref, ret,
    panic, call_Generate, call_Get, call_Create, call_Update, call_Marshal,
    call_Write.

(** *** Running buildSecret *)

Lemma buildSecret_failed s w g certs e (g' : G) :
  CertGenerator (ops s) = Some g →
  generator.Generate g (dnsName s) (gen w) = ((certs, Some e), g') →
  buildSecret s w =
    Returned (None, None, Some e)
             (set_gen g' (logged (CallGenerate (dnsName s)) w)).
Proof. intros Hg Hgen. run. by rewrite Hg, Hgen. Qed.

Lemma buildSecret_built s w g id certs (g' : G) :
  CertGenerator (ops s) = Some g →
  Secret (ops s) = Some id →
  generator.Generate g (dnsName s) (gen w) = ((Some certs, None), g') →
  buildSecret s w =
    Returned (Some (certsToSecret certs id), Some certs, None)
             (set_gen g' (logged (CallGenerate (dnsName s)) w)).
Proof. intros Hg Hid Hgen. run. by rewrite Hg, Hgen, Hid. Qed.

Lemma buildSecret_nil s w g (g' : G) :
  CertGenerator (ops s) = Some g →
  generator.Generate g (dnsName s) (gen w) = ((None, None), g') →
  buildSecret s w = Panicked (set_gen g' (logged (CallGenerate (dnsName s)) w)).
Proof.
  intros Hg Hgen. run. rewrite Hg, Hgen. by destruct (Secret (ops s)).
Qed.

(** *** Running write and overwrite *)

(** The generator failed: both operations return its error and stop. *)
Lemma write_failed s w g certs e (g' : G) :
  CertGenerator (ops s) = Some g →
  generator.Generate g (dnsName s) (gen w) = ((certs, Some e), g') →
  write s w =
    Returned (None, Some e) (set_gen g' (logged (CallGenerate (dnsName s)) w)).
Proof.
  intros Hg Hgen. unfold write, bind.
  by rewrite (buildSecret_failed _ _ _ _ _ _ Hg Hgen).
Qed.

Lemma overwrite_failed s w g certs e (g' : G) :
  CertGenerator (ops s) = Some g →
  generator.Generate g (dnsName s) (gen w) = ((certs, Some e), g') →
  overwrite s w =
    Returned (None, Some e) (set_gen g' (logged (CallGenerate (dnsName s)) w)).
Proof.
  intros Hg Hgen. unfold overwrite, bind.
  by rewrite (buildSecret_failed _ _ _ _ _ _ Hg Hgen).
Qed.

Lemma write_dryrun s w g id o certs (g' : G) :
  CertGenerator (ops s) = Some g →
  Secret (ops s) = Some id →
  Writer (ops s) = Some o →
  dryrun s = true →
  generator.Generate g (dnsName s) (gen w) = ((Some certs, None), g') →
  write s w =
    dryrun_outcome o certs (certsToSecret certs id)
      (set_gen g' (logged (CallGenerate (dnsName s)) w)).
Proof.
  intros Hg Hid Ho Hdry Hgen. unfold write, bind at 1.
  rewrite (buildSecret_built _ _ _ _ _ _ Hg Hid Hgen), Hdry.
  unfold dryrun_outcome. run. rewrite Ho.
  destruct (yaml_Marshal _) as [sec [e|]]; [done|].
  simpl. by destruct (io.Write o sec _) as [[n err] k'].
Qed.

Lemma overwrite_dryrun s w :
  dryrun s = true → overwrite s w = write s w.
Proof.
  intros Hdry. unfold overwrite, write, bind.
  destruct (buildSecret s w) as [[[secret certs] [e|]] w1|w1]; [done| |done].
  by rewrite Hdry.
Qed.

(** The persisting path of write and of overwrite. *)
Lemma write_create s w c g id certs (g' : G) err st' :
  Client (ops s) = Some c →
  CertGenerator (ops s) = Some g →
  Secret (ops s) = Some id →
  dryrun s = false →
  generator.Generate g (dnsName s) (gen w) = ((Some certs, None), g') →
  client.Create c (Some (certsToSecret certs id)) (store w) = (err, st') →
  write s w =
    Returned (if apierrors.IsAlreadyExists err
              then (None, Some (alreadyExistError err))
              else (Some certs, err))
             (set_store st'
                (logged (CallCreate (Some (certsToSecret certs id)))
                   (set_gen g' (logged (CallGenerate (dnsName s)) w)))).
Proof.
  intros Hc Hg Hid Hdry Hgen Hcreate. unfold write, bind at 1.
  rewrite (buildSecret_built _ _ _ _ _ _ Hg Hid Hgen), Hdry.
  run. rewrite Hc. simpl. rewrite Hcreate.
  by destruct (apierrors.IsAlreadyExists err).
Qed.

Lemma overwrite_update s w c g id certs (g' : G) err st' :
  Client (ops s) = Some c →
  CertGenerator (ops s) = Some g →
  Secret (ops s) = Some id →
  dryrun s = false →
  generator.Generate g (dnsName s) (gen w) = ((Some certs, None), g') →
  client.Update c (Some (certsToSecret certs id)) (store w) = (err, st') →
  overwrite s w =
    Returned (Some certs, err)
             (set_store st'
                (logged (CallUpdate (Some (certsToSecret certs id)))
                   (set_gen g' (logged (CallGenerate (dnsName s)) w)))).
Proof.
  intros Hc Hg Hid Hdry Hgen Hupdate. unfold overwrite, bind at 1.
  rewrite (buildSecret_built _ _ _ _ _ _ Hg Hid Hgen), Hdry.
  run. rewrite Hc. simpl. by rewrite Hupdate.
Qed.

(** *** Running read *)

Lemma read_get s w c id obj err st' :
  Client (ops s) = Some c →
  Secret (ops s) = Some id →
  dryrun s = false →
  client.Get c id corev1.zero (store w) = ((obj, err), st') →
  read s w =
    Returned (if apierrors.IsNotFound err
              then (None, Some (notFoundError err))
              else (secretToCerts obj, err))
             (set_store st' (logged (CallGet id) w)).
Proof.
  intros Hc Hid Hdry Hget. run. rewrite Hdry, Hc, Hid. simpl. rewrite Hget.
  by destruct (apierrors.IsNotFound err).
Qed.
Lemma write_nil s w g (g' : G) :
  CertGenerator (ops s) = Some g →
  generator.Generate g (dnsName s) (gen w) = ((None, None), g') →
  write s w = Panicked (set_gen g' (logged (CallGenerate (dnsName s)) w)).
Proof.
  intros Hg Hgen. unfold write, bind.
  by rewrite (buildSecret_nil _ _ _ _ Hg Hgen).
Qed.

(** Reading a trace off an outcome. *)
Ltac trace_of Hrun :=
  erewrite (trace_intro _ _ _)
    by (rewrite Hrun; simpl; rewrite <- ?app_assoc; reflexivity);
  simpl.

(** *** Dry-run *)

(** C6. In dry-run mode read reports absent whatever the backend holds: a
    nil bundle and an error of the not-found kind (wrapping no backend
    error), with no call made to any collaborator and the world left as it
    was; in particular no Get is issued. *)
Theorem read_dryrun s w :
  dryrun s = true →
  read s w = Returned (None, Some (notFoundError None)) w ∧
  isNotFound (Some (notFoundError None)) = true ∧
  trace (read s) w = [].
Proof.
  intros Hdry.
  assert (Hrun : read s w = Returned (None, Some (notFoundError None)) w).
  { unfold read. by rewrite Hdry. }
  split; [done|]. split; [done|].
  unfold trace. rewrite Hrun. simpl. apply drop_all.
Qed.

(** C2. Dry-run purity: write and overwrite in dry-run mode make no call to
    the store (no Create, no Update, no Get) and leave its state as it was,
    whatever it is; they call the generator exactly once; and when the
    generator returns a bundle and the serialization of the would-be record
    succeeds, the calls made are the generation, the serialization of that
    record and one write of the serialized bytes to the configured sink. *)
Theorem dryrun_write_overwrite_pure s w c g id o
    (op : Op St G K (option generator.Artifacts * option error)) :
  configured s c g id o →
  dryrun s = true →
  op = write s ∨ op = overwrite s →
  store (world_of (op w)) = store w ∧
  List.filter store_call (trace op w) = [] ∧
  List.filter generate_call (trace op w) = [CallGenerate (dnsName s)] ∧
  ∀ certs (g' : G) sec,
    generator.Generate g (dnsName s) (gen w) = ((Some certs, None), g') →
    yaml_Marshal (Some (certsToSecret certs id)) = (sec, None) →
    trace op w =
      [CallGenerate (dnsName s);
       CallMarshal (Some (certsToSecret certs id));
       CallWrite sec] ∧
    sink (world_of (op w)) = snd (io.Write o sec (sink w)) ∧
    ∃ err, op w = Returned (Some certs, err) (world_of (op w)).
Proof.
  intros [Hc Hg Hid Ho] Hdry Hop.
  assert (Heq : op w = write s w).
  { destruct Hop as [-> | ->]; [done|]. by apply overwrite_dryrun. }
  assert (Htr : trace op w = trace (write s) w).
  { unfold trace. by rewrite Heq. }
  rewrite Heq, Htr. clear Heq Htr Hop op.
  destruct (generator.Generate g (dnsName s) (gen w))
    as [[[certs|] [e|]] g'] eqn:Hgen.
  - pose proof (write_failed _ _ _ _ _ _ Hg Hgen) as Hrun.
    trace_of Hrun. rewrite Hrun. do 3 (split; [done|]).
    intros ? ? ? [=].
  - pose proof (write_dryrun _ _ _ _ _ _ _ Hg Hid Ho Hdry Hgen) as Hrun.
    unfold dryrun_outcome in Hrun.
    destruct (yaml_Marshal (Some (certsToSecret certs id)))
      as [sec [e|]] eqn:Hyaml.
    + trace_of Hrun. rewrite Hrun. do 3 (split; [done|]).
      intros ? ? ? [= <- <-] Hy. congruence.
    + simpl in Hrun.
      destruct (io.Write o sec (sink w)) as [[n err] k'] eqn:Hwrite.
      trace_of Hrun. rewrite Hrun. do 3 (split; [done|]).
      intros ? ? ? [= <- <-] Hy.
      rewrite Hyaml in Hy. injection Hy as <-.
      split; [done|]. split; [by rewrite Hwrite|]. by eexists.
  - pose proof (write_failed _ _ _ _ _ _ Hg Hgen) as Hrun.
    trace_of Hrun. rewrite Hrun. do 3 (split; [done|]).
    intros ? ? ? [=].
  - pose proof (write_nil _ _ _ _ Hg Hgen) as Hrun.
    trace_of Hrun. rewrite Hrun. do 3 (split; [done|]).
    intros ? ? ? [=].
Qed.

(** *** Surfacing of the two conditions *)

(** C4. Not-found surfacing: on a writer that is not in dry-run mode and
    whose backend holds no record at the configured identifier, so that Get
    reports not-found, read returns a nil bundle and an error of the
    not-found kind, which wraps the error of the backend. *)
Theorem read_not_found s w c id
    (holds : St → types.NamespacedName → option corev1.Secret) :
  Client (ops s) = Some c →
  Secret (ops s) = Some id →
  dryrun s = false →
  reports_missing c holds →
  holds (store w) id = None →
  ∃ e w',
    read s w = Returned (None, Some (notFoundError (Some e))) w' ∧
    isNotFound (Some (notFoundError (Some e))) = true ∧
    apierrors.IsNotFound (Some e) = true.
Proof.
  intros Hc Hid Hdry Hbackend Hnone.
  destruct (Hbackend (store w) id corev1.zero Hnone)
    as (obj & e & st' & Hget & Hnf).
  exists e. eexists.
  rewrite (read_get _ _ _ _ _ _ _ Hc Hid Hdry Hget), Hnf. done.
Qed.

(** C3, as the code has it. Conflict surfacing: on a writer that is not in
    dry-run mode and whose backend already holds a record at the configured
    identifier, so that Create reports already-exists, write returns a nil
    bundle and an error of the already-exists kind wrapping the error of
    the backend, provided the generator has returned a bundle; the only
    call made to the store is that Create, and the record the backend held
    is still there. When the generator fails instead, write returns the
    error of the generator with a nil bundle and the store is not called. *)
Theorem write_conflict s w c g id o
    (holds : St → types.NamespacedName → option corev1.Secret) r :
  configured s c g id o →
  dryrun s = false →
  refuses_existing c holds →
  holds (store w) id = Some r →
  (∀ certs (g' : G),
      generator.Generate g (dnsName s) (gen w) = ((Some certs, None), g') →
      ∃ e w',
        write s w = Returned (None, Some (alreadyExistError (Some e))) w' ∧
        isAlreadyExists (Some (alreadyExistError (Some e))) = true ∧
        apierrors.IsAlreadyExists (Some e) = true ∧
        holds (store w') id = Some r ∧
        List.filter store_call (trace (write s) w) =
          [CallCreate (Some (certsToSecret certs id))]) ∧
  (∀ certs e (g' : G),
      generator.Generate g (dnsName s) (gen w) = ((certs, Some e), g') →
      ∃ w',
        write s w = Returned (None, Some e) w' ∧
        store w' = store w ∧
        List.filter store_call (trace (write s) w) = []).
Proof.
  intros [Hc Hg Hid Ho] Hdry Hbackend Hholds. split.
  - intros certs g' Hgen.
    destruct (Hbackend (store w) (certsToSecret certs id) r)
      as (e & st' & Hcreate & Hae & Hkept).
    { by rewrite key_of_certsToSecret. }
    rewrite key_of_certsToSecret in Hkept.
    pose proof (write_create _ _ _ _ _ _ _ _ _ Hc Hg Hid Hdry Hgen Hcreate)
      as Hrun.
    rewrite Hae in Hrun.
    exists e. eexists. split; [exact Hrun|].
    trace_of Hrun. done.
  - intros certs e g' Hgen.
    pose proof (write_failed _ _ _ _ _ _ Hg Hgen) as Hrun.
    eexists. split; [exact Hrun|].
    trace_of Hrun. done.
Qed.
(** *** Propagation of errors *)

(** C9. Only two conditions are classified. Outside dry-run mode, read
    returns the error of Get wrapped in the not-found kind when it is a
    not-found of the backend, and as it is otherwise; write returns the
    error of Create wrapped in the already-exists kind when it is an
    already-exists of the backend, and as it is otherwise; overwrite returns
    the error of Update as it is. An error of the generator is returned as
    it is by write and by overwrite, in either mode. *)
Theorem errors_pass_through s w c g id o :
  configured s c g id o →
  (∀ certs e (g' : G),
      generator.Generate g (dnsName s) (gen w) = ((certs, Some e), g') →
      ∃ w',
        write s w = Returned (None, Some e) w' ∧
        overwrite s w = Returned (None, Some e) w') ∧
  (dryrun s = false →
   (∀ obj err st',
       client.Get c id corev1.zero (store w) = ((obj, err), st') →
       ∃ r w',
         read s w =
           Returned (r, if apierrors.IsNotFound err
                        then Some (notFoundError err) else err) w') ∧
   (∀ certs (g' : G),
       generator.Generate g (dnsName s) (gen w) = ((Some certs, None), g') →
       (∀ err st',
           client.Create c (Some (certsToSecret certs id)) (store w) = (err, st') →
           ∃ r w',
             write s w =
               Returned (r, if apierrors.IsAlreadyExists err
                            then Some (alreadyExistError err) else err) w') ∧
       (∀ err st',
           client.Update c (Some (certsToSecret certs id)) (store w) = (err, st') →
           ∃ r w', overwrite s w = Returned (r, err) w'))).
Proof.
  intros [Hc Hg Hid Ho]. split.
  - intros certs e g' Hgen. eexists.
    by rewrite (write_failed _ _ _ _ _ _ Hg Hgen),
               (overwrite_failed _ _ _ _ _ _ Hg Hgen).
  - intros Hdry. split.
    + intros obj err st' Hget.
      rewrite (read_get _ _ _ _ _ _ _ Hc Hid Hdry Hget).
      destruct (apierrors.IsNotFound err); by do 2 eexists.
    + intros certs g' Hgen. split.
      * intros err st' Hcreate.
        rewrite (write_create _ _ _ _ _ _ _ _ _ Hc Hg Hid Hdry Hgen Hcreate).
        destruct (apierrors.IsAlreadyExists err); by do 2 eexists.
      * intros err st' Hupdate.
        rewrite (overwrite_update _ _ _ _ _ _ _ _ _ Hc Hg Hid Hdry Hgen Hupdate).
        by do 2 eexists.
Qed.

(** C10. Once the generator has returned a bundle, a later failure leaves
    the bundle in the result: write returns it with any error of Create
    that is not an already-exists of the backend, overwrite returns it with
    any error of Update, and in dry-run mode both return it with the error
    of the serializer or of the sink. The already-exists of Create is the
    one case where the error comes with a nil bundle. *)
Theorem late_failure_keeps_bundle s w c g id o certs (g' : G) :
  configured s c g id o →
  generator.Generate g (dnsName s) (gen w) = ((Some certs, None), g') →
  (dryrun s = false →
   (∀ err st',
       client.Create c (Some (certsToSecret certs id)) (store w) = (err, st') →
       ∃ w',
         write s w =
           Returned (if apierrors.IsAlreadyExists err
                     then (None, Some (alreadyExistError err))
                     else (Some certs, err)) w') ∧
   (∀ err st',
       client.Update c (Some (certsToSecret certs id)) (store w) = (err, st') →
       ∃ w', overwrite s w = Returned (Some certs, err) w')) ∧
  (dryrun s = true →
   ∃ err w',
     write s w = Returned (Some certs, err) w' ∧
     overwrite s w = Returned (Some certs, err) w' ∧
     (∀ sec e,
         yaml_Marshal (Some (certsToSecret certs id)) = (sec, Some e) →
         err = Some e) ∧
     (∀ sec,
         yaml_Marshal (Some (certsToSecret certs id)) = (sec, None) →
         err = snd (fst (io.Write o sec (sink w))))).
Proof.
  intros [Hc Hg Hid Ho] Hgen. split.
  - intros Hdry. split.
    + intros err st' Hcreate. eexists.
      by apply (write_create _ _ _ _ _ _ _ _ _ Hc Hg Hid Hdry Hgen Hcreate).
    + intros err st' Hupdate. eexists.
      by apply (overwrite_update _ _ _ _ _ _ _ _ _ Hc Hg Hid Hdry Hgen Hupdate).
  - intros Hdry.
    rewrite (overwrite_dryrun _ _ Hdry),
            (write_dryrun _ _ _ _ _ _ _ Hg Hid Ho Hdry Hgen).
    unfold dryrun_outcome.
    destruct (yaml_Marshal (Some (certsToSecret certs id)))
      as [sec [e|]] eqn:Hyaml.
    + exists (Some e). eexists. do 2 (split; [done|]).
      split; intros; by simplify_eq.
    + simpl.
      destruct (io.Write o sec (sink w)) as [[n err] k'] eqn:Hwrite.
      exists err. eexists. do 2 (split; [done|]).
      split; intros; simplify_eq. by rewrite Hwrite.
Qed.

(** *** The records handed to the collaborators *)

Ltac records :=
  run; repeat case_match; simplify_eq/=;
  first
    [ exists []; split; [by rewrite app_nil_r | by constructor]
    | eexists; split;
      [ rewrite <- ?app_assoc; reflexivity
      | simpl; repeat constructor; unfold built_by; eauto ] ].

Lemma write_records s w :
  ∃ t, calls (world_of (write s w)) = calls w ++ t ∧
       Forall (built_by s) (omap record_of t).
Proof. records. Qed.

Lemma overwrite_records s w :
  ∃ t, calls (world_of (overwrite s w)) = calls w ++ t ∧
       Forall (built_by s) (omap record_of t).
Proof. records. Qed.

(** C8. Every record produced by this core carries the namespace and the
    name of the configured identifier and a data map that is present and
    has exactly the three well-known names as its keys: so it is for every
    result of certsToSecret, and so for every record that a run of write or
    of overwrite hands to Create, to Update or to the serializer. *)
Theorem produced_records_well_formed :
  names_distinct →
  (∀ certs id, core_record id (certsToSecret certs id)) ∧
  (∀ s w (op : Op St G K (option generator.Artifacts * option error)),
      op = write s ∨ op = overwrite s →
      ∀ call obj,
        call ∈ trace op w →
        record_of call = Some obj →
        ∃ id r,
          Secret (ops s) = Some id ∧ obj = Some r ∧ core_record id r).
Proof.
  intros Hnames. split.
  - intros certs id. by apply certsToSecret_core_record.
  - intros s w op Hop call obj Hin Hrec.
    assert (∃ t, trace op w = t ∧ Forall (built_by s) (omap record_of t))
      as (t & Ht & Hall).
    { destruct Hop as [-> | ->];
        [destruct (write_records s w) as (t & Hcalls & Hall)
        |destruct (overwrite_records s w) as (t & Hcalls & Hall)];
        exists t; split; try done; by apply trace_intro. }
    rewrite Ht in Hin.
    rewrite Forall_forall in Hall.
    destruct (Hall obj) as (id & certs & Hid & ->).
    { apply list_elem_of_omap. by exists call. }
    exists id, (certsToSecret certs id).
    split; [done|]. split; [done|]. by apply certsToSecret_core_record.
Qed.

(** *** The constructor *)

(** C7. NewSecretCertWriter returns an error built by errors.New, and no
    writer, exactly when the client or the secret identifier is unset in
    the options. Otherwise it returns no error and a writer, not in
    dry-run mode, that keeps the client and the identifier, keeps the
    generator and the sink that were set, and has the self-signed generator
    for an unset generator and the standard output for an unset sink. *)
Theorem NewSecretCertWriter_contract (o : SecretCertWriterOptions St G K) :
  ((Client o = None ∨ Secret o = None) ↔
   ∃ msg, NewSecretCertWriter o = (None, Some (errorString msg))) ∧
  (∀ c id,
      Client o = Some c → Secret o = Some id →
      NewSecretCertWriter o =
        (Some {| ops :=
                   {| Client := Some c;
                      CertGenerator :=
                        Some (default SelfSignedCertGenerator (CertGenerator o));
                      Secret := Some id;
                      Writer := Some (default os_Stdout (Writer o)) |};
                 dnsName := "";
                 dryrun := false |},
         None)).
Proof.
  destruct o as [[c|] [g|] [id|] [wr|]];
    unfold NewSecretCertWriter, setDefaults, validate; simpl;
    (split;
     [ split;
       [ intros [?|?]; try done; by eexists
       | intros [msg Hmsg]; try done; auto ]
     | intros ? ? ? ?; by simplify_eq ]).
Qed.

(** What the constructor returns is a configured writer. *)
Lemma NewSecretCertWriter_configured (o : SecretCertWriterOptions St G K) s :
  NewSecretCertWriter o = (Some s, None) →
  ∃ c g id wr, configured s c g id wr ∧ dnsName s = "" ∧ dryrun s = false.
Proof.
  destruct o as [[c|] [g|] [id|] [wr|]];
    unfold NewSecretCertWriter, setDefaults, validate; simpl;
    intros ?; simplify_eq; by repeat eexists.
Qed.

(** *** Further properties of the constructor *)

(** X5. setDefaults fills in only what is unset: it keeps the client and the
    identifier as they are, nil included, keeps a generator and a sink that
    are set, leaves none of the two nil, does not change what validate
    answers, and applying it twice is applying it once. *)
Theorem setDefaults_only_fills (o : SecretCertWriterOptions St G K) :
  Client (setDefaults o) = Client o ∧
  Secret (setDefaults o) = Secret o ∧
  CertGenerator (setDefaults o) =
    Some (default SelfSignedCertGenerator (CertGenerator o)) ∧
  Writer (setDefaults o) = Some (default os_Stdout (Writer o)) ∧
  validate (setDefaults o) = validate o ∧
  setDefaults (setDefaults o) = setDefaults o.
Proof. by destruct o as [c [g|] id [wr|]]. Qed.

(** X6. The error of the constructor names the first option that is missing:
    the client when the client is unset, whether or not the identifier is
    set, and the secret when only the identifier is unset. *)
Theorem NewSecretCertWriter_error (o : SecretCertWriterOptions St G K) :
  (Client o = None →
   NewSecretCertWriter o =
     (None, Some (errorString "client must be set in SecretCertWriterOptions"))) ∧
  (is_Some (Client o) → Secret o = None →
   NewSecretCertWriter o =
     (None, Some (errorString "secret must be set in SecretCertWriterOptions"))).
Proof.
  destruct o as [[c|] [g|] [id|] [wr|]];
    unfold NewSecretCertWriter, setDefaults, validate; simpl;
    (split; [by intros ?|intros [? ?] ?; by simplify_eq]).
Qed.

(** X7. The constructor is idempotent on what it builds: given the options of
    a writer it has returned, it returns that same writer again. *)
Theorem NewSecretCertWriter_again (o : SecretCertWriterOptions St G K) s :
  NewSecretCertWriter o = (Some s, None) →
  NewSecretCertWriter (ops s) = (Some s, None).
Proof.
  destruct o as [[c|] [g|] [id|] [wr|]];
    unfold NewSecretCertWriter, setDefaults, validate; simpl;
    intros ?; by simplify_eq.
Qed.

(** *** Further properties of the operations *)

Ltac shapes :=
  run; repeat case_match; simplify_eq/=;
  first
    [ exists []; split; [by rewrite app_nil_r | by eauto 10]
    | eexists; split;
      [ rewrite <- ?app_assoc; reflexivity
      | simpl; by eauto 10 ] ].

(** The calls of write, of overwrite and of read, whatever the writer. *)
Lemma write_shape s w :
  ∃ t, calls (world_of (write s w)) = calls w ++ t ∧
       (t = [] ∨
        ∃ rest, t = CallGenerate (dnsName s) :: rest ∧
                List.filter generate_call rest = [] ∧
                (List.filter store_call rest = [] ∨
                 ∃ obj, List.filter store_call rest = [CallCreate obj])).
Proof. shapes. Qed.

Lemma overwrite_shape s w :
  ∃ t, calls (world_of (overwrite s w)) = calls w ++ t ∧
       (t = [] ∨
        ∃ rest, t = CallGenerate (dnsName s) :: rest ∧
                List.filter generate_call rest = [] ∧
                (List.filter store_call rest = [] ∨
                 ∃ obj, List.filter store_call rest = [CallUpdate obj])).
Proof. shapes. Qed.

Lemma read_shape s w :
  ∃ t, calls (world_of (read s w)) = calls w ++ t ∧
       (t = [] ∨ ∃ id, Secret (ops s) = Some id ∧ t = [CallGet id]).
Proof. shapes. Qed.

(** X8. What write and overwrite call, for every writer and every world: if
    they call anything, the first call is the generator, with the DNS name
    of the writer, and it is the only call to the generator; after it comes
    at most one call to the store, which is a Create for write and an Update
    for overwrite. So write never calls Update or Get, overwrite never calls
    Create or Get, and nothing reaches the store before the generator has
    answered. *)
Theorem write_overwrite_calls s w :
  (trace (write s) w = [] ∨
   ∃ rest, trace (write s) w = CallGenerate (dnsName s) :: rest ∧
           List.filter generate_call rest = [] ∧
           (List.filter store_call rest = [] ∨
            ∃ obj, List.filter store_call rest = [CallCreate obj])) ∧
  (trace (overwrite s) w = [] ∨
   ∃ rest, trace (overwrite s) w = CallGenerate (dnsName s) :: rest ∧
           List.filter generate_call rest = [] ∧
           (List.filter store_call rest = [] ∨
            ∃ obj, List.filter store_call rest = [CallUpdate obj])).
Proof.
  split.
  - destruct (write_shape s w) as (t & Hcalls & Hshape).
    by rewrite (trace_intro _ _ _ Hcalls).
  - destruct (overwrite_shape s w) as (t & Hcalls & Hshape).
    by rewrite (trace_intro _ _ _ Hcalls).
Qed.

(** X9. read only reads: for every writer and every world it leaves the
    generator and the sink as they were and calls at most the store, once,
    with a Get at the identifier of the writer. *)
Theorem read_only_gets s w :
  gen (world_of (read s w)) = gen w ∧
  sink (world_of (read s w)) = sink w ∧
  (trace (read s) w = [] ∨
   ∃ id, Secret (ops s) = Some id ∧ trace (read s) w = [CallGet id]).
Proof.
  split; [|split].
  - run. by repeat case_match; simplify_eq/=.
  - run. by repeat case_match; simplify_eq/=.
  - destruct (read_shape s w) as (t & Hcalls & Hshape).
    by rewrite (trace_intro _ _ _ Hcalls).
Qed.

Lemma overwrite_nil s w g (g' : G) :
  CertGenerator (ops s) = Some g →
  generator.Generate g (dnsName s) (gen w) = ((None, None), g') →
  overwrite s w = Panicked (set_gen g' (logged (CallGenerate (dnsName s)) w)).
Proof.
  intros Hg Hgen. unfold overwrite, bind.
  by rewrite (buildSecret_nil _ _ _ _ Hg Hgen).
Qed.

Lemma write_returns s w c g id o certs err (g' : G) :
  configured s c g id o →
  generator.Generate g (dnsName s) (gen w) = ((certs, err), g') →
  (certs, err) ≠ (None, None) →
  ∃ r w', write s w = Returned r w'.
Proof.
  intros [Hc Hg Hid Ho] Hgen Hne.
  destruct err as [e|].
  { rewrite (write_failed _ _ _ _ _ _ Hg Hgen). by do 2 eexists. }
  destruct certs as [certs|]; [|done].
  destruct (dryrun s) eqn:Hdry.
  - rewrite (write_dryrun _ _ _ _ _ _ _ Hg Hid Ho Hdry Hgen).
    unfold dryrun_outcome.
    destruct (yaml_Marshal _) as [sec [e|]]; [by do 2 eexists|].
    destruct (io.Write o sec _) as [[n err] k']. by do 2 eexists.
  - destruct (client.Create c (Some (certsToSecret certs id)) (store w))
      as [err st'] eqn:Hcreate.
    rewrite (write_create _ _ _ _ _ _ _ _ _ Hc Hg Hid Hdry Hgen Hcreate).
    by do 2 eexists.
Qed.

Lemma overwrite_returns s w c g id o certs err (g' : G) :
  configured s c g id o →
  generator.Generate g (dnsName s) (gen w) = ((certs, err), g') →
  (certs, err) ≠ (None, None) →
  ∃ r w', overwrite s w = Returned r w'.
Proof.
  intros Hcfg Hgen Hne.
  destruct (dryrun s) eqn:Hdry.
  - rewrite (overwrite_dryrun _ _ Hdry). by eapply write_returns.
  - destruct Hcfg as [Hc Hg Hid Ho].
    destruct err as [e|].
    { rewrite (overwrite_failed _ _ _ _ _ _ Hg Hgen). by do 2 eexists. }
    destruct certs as [certs|]; [|done].
    destruct (client.Update c (Some (certsToSecret certs id)) (store w))
      as [err st'] eqn:Hupdate.
    rewrite (overwrite_update _ _ _ _ _ _ _ _ _ Hc Hg Hid Hdry Hgen Hupdate).
    by do 2 eexists.
Qed.

(** X10. On a configured writer the operations panic in one case only: write
    and overwrite panic exactly when the generator returns a nil bundle
    together with a nil error (certsToSecret then follows the nil pointer);
    read never panics. *)
Theorem panic_only_on_nil_bundle s w c g id o :
  configured s c g id o →
  ((∃ w', write s w = Panicked w') ↔
   ∃ g' : G, generator.Generate g (dnsName s) (gen w) = ((None, None), g')) ∧
  ((∃ w', overwrite s w = Panicked w') ↔
   ∃ g' : G, generator.Generate g (dnsName s) (gen w) = ((None, None), g')) ∧
  ∃ r w', read s w = Returned r w'.
Proof.
  intros Hcfg.
  destruct (generator.Generate g (dnsName s) (gen w)) as [[certs err] g'] eqn:Hgen.
  assert (Hg : CertGenerator (ops s) = Some g) by by destruct Hcfg.
  split; [|split].
  - split.
    + intros [w' Hpanic].
      destruct certs as [a|], err as [e|]; try by eexists.
      all: destruct (write_returns _ _ _ _ _ _ _ _ _ Hcfg Hgen) as (r & w1 & Hrun);
        [done | congruence].
    + intros [g'' Heq]. simplify_eq. eexists. by eapply write_nil.
  - split.
    + intros [w' Hpanic].
      destruct certs as [a|], err as [e|]; try by eexists.
      all: destruct (overwrite_returns _ _ _ _ _ _ _ _ _ Hcfg Hgen)
             as (r & w1 & Hrun); [done | congruence].
    + intros [g'' Heq]. simplify_eq. eexists. by eapply overwrite_nil.
  - destruct Hcfg as [Hc _ Hid _].
    destruct (dryrun s) eqn:Hdry.
    + do 2 eexists. unfold read. by rewrite Hdry.
    + destruct (client.Get c id corev1.zero (store w)) as [[obj e] st'] eqn:Hget.
      rewrite (read_get _ _ _ _ _ _ _ Hc Hid Hdry Hget). by do 2 eexists.
Qed.

Ltac quiet Hdry :=
  run; rewrite Hdry; repeat case_match; simplify_eq/=;
  first
    [ exists []; split; [by rewrite app_nil_r | done]
    | eexists; split; [rewrite <- ?app_assoc; reflexivity | done] ].

Lemma write_quiet s w :
  dryrun s = false →
  ∃ t, calls (world_of (write s w)) = calls w ++ t ∧
       List.filter dryrun_call t = [] ∧
       sink (world_of (write s w)) = sink w.
Proof. intros Hdry. quiet Hdry. Qed.

Lemma overwrite_quiet s w :
  dryrun s = false →
  ∃ t, calls (world_of (overwrite s w)) = calls w ++ t ∧
       List.filter dryrun_call t = [] ∧
       sink (world_of (overwrite s w)) = sink w.
Proof. intros Hdry. quiet Hdry. Qed.

(** X11. Outside dry-run mode write and overwrite render nothing: for every
    writer and every world they never call the serializer, never write to
    the sink, and leave the sink as it was. *)
Theorem persisting_renders_nothing s w :
  dryrun s = false →
  List.filter dryrun_call (trace (write s) w) = [] ∧
  sink (world_of (write s w)) = sink w ∧
  List.filter dryrun_call (trace (overwrite s) w) = [] ∧
  sink (world_of (overwrite s w)) = sink w.
Proof.
  intros Hdry.
  destruct (write_quiet s w Hdry) as (t & Hcalls & Hnone & Hsink).
  destruct (overwrite_quiet s w Hdry) as (t' & Hcalls' & Hnone' & Hsink').
  by rewrite (trace_intro _ _ _ Hcalls), (trace_intro _ _ _ Hcalls').
Qed.

(** X12. In dry-run mode, when the serializer fails nothing is written: write
    and overwrite return the bundle with the error of the serializer, and
    the sink and the store are as they were. *)
Theorem dryrun_marshal_failure s w c g id o certs (g' : G) sec e :
  configured s c g id o →
  dryrun s = true →
  generator.Generate g (dnsName s) (gen w) = ((Some certs, None), g') →
  yaml_Marshal (Some (certsToSecret certs id)) = (sec, Some e) →
  ∃ w',
    write s w = Returned (Some certs, Some e) w' ∧
    overwrite s w = Returned (Some certs, Some e) w' ∧
    sink w' = sink w ∧
    store w' = store w ∧
    List.filter sink_call (trace (write s) w) = [] ∧
    List.filter sink_call (trace (overwrite s) w) = [].
Proof.
  intros [Hc Hg Hid Ho] Hdry Hgen Hyaml.
  pose proof (write_dryrun _ _ _ _ _ _ _ Hg Hid Ho Hdry Hgen) as Hrun.
  unfold dryrun_outcome in Hrun. rewrite Hyaml in Hrun.
  assert (Hrun' := Hrun). rewrite <- (overwrite_dryrun _ _ Hdry) in Hrun'.
  eexists. split; [exact Hrun|]. split; [exact Hrun'|].
  do 2 (split; [done|]).
  trace_of Hrun. trace_of Hrun'. done.
Qed.

(** X13. A failed generation has no other effect: when the generator returns
    an error, in either mode, write and overwrite return that error with a
    nil bundle (a bundle returned beside the error is dropped), the call to
    the generator is the only call made, and the store and the sink are as
    they were. *)
Theorem failed_generation_stops s w g certs e (g' : G) :
  CertGenerator (ops s) = Some g →
  generator.Generate g (dnsName s) (gen w) = ((certs, Some e), g') →
  ∃ w',
    write s w = Returned (None, Some e) w' ∧
    overwrite s w = Returned (None, Some e) w' ∧
    store w' = store w ∧
    sink w' = sink w ∧
    gen w' = g' ∧
    trace (write s) w = [CallGenerate (dnsName s)] ∧
    trace (overwrite s) w = [CallGenerate (dnsName s)].
Proof.
  intros Hg Hgen.
  pose proof (write_failed _ _ _ _ _ _ Hg Hgen) as Hrun.
  pose proof (overwrite_failed _ _ _ _ _ _ Hg Hgen) as Hrun'.
  eexists. split; [exact Hrun|]. split; [exact Hrun'|].
  do 3 (split; [done|]).
  trace_of Hrun. trace_of Hrun'. done.
Qed.

(** *** Write, then read *)

(** A write that returned a bundle and no error has created the record of
    that bundle; likewise an overwrite has updated it. *)
Lemma write_succeeded s w w1 c g id o certs :
  configured s c g id o →
  dryrun s = false →
  write s w = Returned (Some certs, None) w1 →
  ∃ st, client.Create c (Some (certsToSecret certs id)) st = (None, store w1).
Proof.
  intros [Hc Hg Hid Ho] Hdry Hrun.
  destruct (generator.Generate g (dnsName s) (gen w))
    as [[[certs'|] [e|]] g'] eqn:Hgen.
  - by rewrite (write_failed _ _ _ _ _ _ Hg Hgen) in Hrun.
  - destruct (client.Create c (Some (certsToSecret certs' id)) (store w))
      as [err st'] eqn:Hcreate.
    rewrite (write_create _ _ _ _ _ _ _ _ _ Hc Hg Hid Hdry Hgen Hcreate) in Hrun.
    destruct (apierrors.IsAlreadyExists err); simplify_eq. by eexists.
  - by rewrite (write_failed _ _ _ _ _ _ Hg Hgen) in Hrun.
  - by rewrite (write_nil _ _ _ _ Hg Hgen) in Hrun.
Qed.

Lemma overwrite_succeeded s w w1 c g id o certs :
  configured s c g id o →
  dryrun s = false →
  overwrite s w = Returned (Some certs, None) w1 →
  ∃ st, client.Update c (Some (certsToSecret certs id)) st = (None, store w1).
Proof.
  intros [Hc Hg Hid Ho] Hdry Hrun.
  destruct (generator.Generate g (dnsName s) (gen w))
    as [[[certs'|] [e|]] g'] eqn:Hgen.
  - by rewrite (overwrite_failed _ _ _ _ _ _ Hg Hgen) in Hrun.
  - destruct (client.Update c (Some (certsToSecret certs' id)) (store w))
      as [err st'] eqn:Hupdate.
    rewrite (overwrite_update _ _ _ _ _ _ _ _ _ Hc Hg Hid Hdry Hgen Hupdate)
      in Hrun.
    simplify_eq. by eexists.
  - by rewrite (overwrite_failed _ _ _ _ _ _ Hg Hgen) in Hrun.
  - by rewrite (overwrite_nil _ _ _ _ Hg Hgen) in Hrun.
Qed.

Lemma read_held s w c id certs
    (holds : St → types.NamespacedName → option corev1.Secret) :
  names_distinct →
  Client (ops s) = Some c →
  Secret (ops s) = Some id →
  dryrun s = false →
  returns_held c holds →
  holds (store w) id = Some (certsToSecret certs id) →
  ∃ w', read s w = Returned (Some certs, None) w'.
Proof.
  intros Hnames Hc Hid Hdry Hget Hheld.
  destruct (Hget (store w) id corev1.zero _ Hheld) as [st' Hgot].
  rewrite (read_get _ _ _ _ _ _ _ Hc Hid Hdry Hgot). simpl.
  rewrite secretToCerts_built by done. by eexists.
Qed.

(** X14. Write, then read: on a backend that keeps what it accepts and
    returns what it holds, after a write outside dry-run mode has returned a
    bundle and no error, read returns that same bundle and no error. *)
Theorem write_then_read s w w1 c g id o certs
    (holds : St → types.NamespacedName → option corev1.Secret) :
  names_distinct →
  configured s c g id o →
  dryrun s = false →
  keeps_created c holds →
  returns_held c holds →
  write s w = Returned (Some certs, None) w1 →
  ∃ w2, read s w1 = Returned (Some certs, None) w2.
Proof.
  intros Hnames Hcfg Hdry Hkeeps Hget Hrun.
  destruct (write_succeeded _ _ _ _ _ _ _ _ Hcfg Hdry Hrun) as [st Hcreate].
  apply Hkeeps in Hcreate. rewrite key_of_certsToSecret in Hcreate.
  destruct Hcfg as [Hc _ Hid _].
  by eapply read_held.
Qed.

(** X15. Overwrite, then read: on such a backend, after an overwrite outside
    dry-run mode has returned a bundle and no error, read returns that same
    bundle and no error, whatever the backend held before. *)
Theorem overwrite_then_read s w w1 c g id o certs
    (holds : St → types.NamespacedName → option corev1.Secret) :
  names_distinct →
  configured s c g id o →
  dryrun s = false →
  keeps_updated c holds →
  returns_held c holds →
  overwrite s w = Returned (Some certs, None) w1 →
  ∃ w2, read s w1 = Returned (Some certs, None) w2.
Proof.
  intros Hnames Hcfg Hdry Hkeeps Hget Hrun.
  destruct (overwrite_succeeded _ _ _ _ _ _ _ _ Hcfg Hdry Hrun) as [st Hupdate].
  apply Hkeeps in Hupdate. rewrite key_of_certsToSecret in Hupdate.
  destruct Hcfg as [Hc _ Hid _].
  by eapply read_held.
Qed.

(** X16. Write is not idempotent: on a backend that keeps what it accepts and
    refuses to create over what it holds, after a write has returned a
    bundle and no error, a second write whose generation succeeds returns a
    nil bundle and an error of the already-exists kind, and the record of
    the first write is still held. *)
Theorem write_twice_conflicts s w w1 c g id o certs certs2 (g2 : G)
    (holds : St → types.NamespacedName → option corev1.Secret) :
  configured s c g id o →
  dryrun s = false →
  keeps_created c holds →
  refuses_existing c holds →
  write s w = Returned (Some certs, None) w1 →
  generator.Generate g (dnsName s) (gen w1) = ((Some certs2, None), g2) →
  ∃ e w2,
    write s w1 = Returned (None, Some (alreadyExistError (Some e))) w2 ∧
    holds (store w2) id = Some (certsToSecret certs id).
Proof.
  intros Hcfg Hdry Hkeeps Hrefuses Hrun Hgen.
  destruct (write_succeeded _ _ _ _ _ _ _ _ Hcfg Hdry Hrun) as [st Hcreate].
  apply Hkeeps in Hcreate. rewrite key_of_certsToSecret in Hcreate.
  destruct Hcfg as [Hc Hg Hid Ho].
  destruct (Hrefuses (store w1) (certsToSecret certs2 id)
              (certsToSecret certs id))
    as (e & st' & Hcreate2 & Hae & Hkept).
  { rewrite key_of_certsToSecret. exact Hcreate. }
  rewrite key_of_certsToSecret in Hkept.
  rewrite (write_create _ _ _ _ _ _ _ _ _ Hc Hg Hid Hdry Hgen Hcreate2), Hae.
  by do 2 eexists.
Qed.

(** X17. What read makes of the answer of Get, outside dry-run mode: the
    bundle is nil exactly when the backend reported not-found or the object
    it filled has no data map; the error is nil exactly when the backend
    reported none; and an error other than not-found comes back as it is,
    together with the bundle of whatever the backend left in the object. So
    a held record without a data map reads as a nil bundle with a nil
    error, and a failed Get can return a bundle beside its error. *)
Theorem read_result s w c id obj err st' :
  Client (ops s) = Some c →
  Secret (ops s) = Some id →
  dryrun s = false →
  client.Get c id corev1.zero (store w) = ((obj, err), st') →
  ∃ a e w',
    read s w = Returned (a, e) w' ∧
    (a = None ↔ apierrors.IsNotFound err = true ∨ corev1.Data obj = None) ∧
    (e = None ↔ err = None) ∧
    (apierrors.IsNotFound err = false → a = secretToCerts obj ∧ e = err).
Proof.
  intros Hc Hid Hdry Hget.
  rewrite (read_get _ _ _ _ _ _ _ Hc Hid Hdry Hget).
  destruct (apierrors.IsNotFound err) eqn:Hnf.
  - do 3 eexists. split; [done|]. split; [by split; auto|].
    split; [|done]. split; [done|]. intros ->. done.
  - do 3 eexists. split; [done|]. split; [|done].
    destruct obj as [meta [data|]]; unfold secretToCerts; simpl.
    + split; [done | by intros [?|?]].
    + split; [by right | done].
Qed.

(** The two fields that EnsureCert sets leave a configured writer configured,
    and EnsureCert hands such a writer to [handleCommon]. *)
Lemma configured_fields s c g id o (dns : string) (dry : bool) :
  configured s c g id o →
  configured {| ops := ops s; dnsName := dns; dryrun := dry |} c g id o.
Proof. by intros [Hc Hg Hid Ho]. Qed.

Lemma EnsureCert_run {R : Type}
    (handleCommon : string → secretCertWriter St G K → Op St G K R)
    s (dns : string) (dry : bool) w :
  let s' := {| ops := ops s; dnsName := dns; dryrun := dry |} in
  EnsureCert handleCommon s dns dry w =
    match handleCommon dns s' w with
    | Returned r w' => Returned (s', r) w'
    | Panicked w' => Panicked w'
    end.
Proof. reflexivity. Qed.
End OperationProperties.

(** ** The operations at work on the test doubles *)

Lemma fake_client_refuses_existing : refuses_existing fake.client fake.holds.
Proof.
  intros st obj r Hheld. simpl. unfold fake.Create. rewrite Hheld.
  by do 2 eexists.
Qed.

Lemma fake_client_reports_missing : reports_missing fake.client fake.holds.
Proof.
  intros st key obj Hnone. simpl. unfold fake.Get. rewrite Hnone.
  by do 3 eexists.
Qed.

Lemma fake_writer_configured g dry :
  configured (fake.writer g dry) fake.client g fake.id fake.buffer.
Proof. by constructor. Defined.

Lemma fake_names_distinct : names_distinct (names := fake.names).
Proof. by repeat split. Defined.

(** The scenario of the spec: on an empty backend write succeeds and the
    backend then holds the record of the bundle; a read returns the bundle; a
    second write reports already-exists; an overwrite with a new bundle
    replaces the record. *)
Example scenario_persisting :
  let s := fake.writer (fake.fixed fake.bundle) false in
  let s2 := fake.writer (fake.fixed fake.bundle2) false in
  let w0 := fake.world ∅ in
  let w1 := world_of (write s w0) in
  let w2 := world_of (read s w1) in
  let w3 := world_of (write s w2) in
  let w4 := world_of (overwrite s2 w3) in
  let w5 := world_of (read s w4) in
  write s w0 = Returned (Some fake.bundle, None) w1 ∧
  fake.holds (store w1) fake.id = Some (certsToSecret fake.bundle fake.id) ∧
  read s w1 = Returned (Some fake.bundle, None) w2 ∧
  write s w2 =
    Returned
      (None,
       Some (alreadyExistError
               (Some (StatusError metav1.StatusReasonAlreadyExists
                                  "already exists")))) w3 ∧
  fake.holds (store w3) fake.id = Some (certsToSecret fake.bundle fake.id) ∧
  overwrite s2 w3 = Returned (Some fake.bundle2, None) w4 ∧
  fake.holds (store w4) fake.id = Some (certsToSecret fake.bundle2 fake.id) ∧
  read s w4 = Returned (Some fake.bundle2, None) w5.
Proof. intros; repeat apply conj; reflexivity. Qed.

(** The dry-run scenario: against a backend that holds a record, a dry-run
    write returns the bundle, renders the would-be record once on the sink,
    and leaves the backend as it was. *)
Example scenario_dryrun :
  let s := fake.writer (fake.fixed fake.bundle) true in
  let w0 := fake.world fake.taken in
  let w1 := world_of (write s w0) in
  write s w0 = Returned (Some fake.bundle, None) w1 ∧
  store w1 = fake.taken ∧
  sink w1 = [fst (fake.render (Some (certsToSecret fake.bundle fake.id)))] ∧
  read s w1 = Returned (None, Some (notFoundError None)) w1.
Proof. intros; repeat apply conj; reflexivity. Qed.

(** C3, as stated, fails when the generator fails: the backend holds a record
    at the identifier and would refuse a Create, yet write stops at the
    generator and returns its error, which is not of the already-exists
    kind. *)
Lemma write_conflict_generator_failure :
  let g := fake.failing (errorString "no entropy") in
  let s := fake.writer g false in
  let w := fake.world fake.taken in
  write s w =
    Returned (None, Some (errorString "no entropy"))
             (set_gen 1 (logged (CallGenerate "svc.ns.svc") w)) ∧
  isAlreadyExists (Some (errorString "no entropy")) = false ∧
  ¬ conflict_surfacing_as_stated s w fake.client g fake.id fake.buffer fake.holds.
Proof.
  intros g s w.
  assert (Hrun : write s w =
                   Returned (None, Some (errorString "no entropy"))
                            (set_gen 1 (logged (CallGenerate "svc.ns.svc") w)))
    by reflexivity.
  split; [exact Hrun|]. split; [reflexivity|].
  intros Hclaim.
  destruct Hclaim as (e & w' & Hrun' & Hkind & _).
  - apply fake_writer_configured.
  - reflexivity.
  - apply fake_client_refuses_existing.
  - by eexists.
  - rewrite Hrun in Hrun'. by simplify_eq.
Qed.

(** ** The theorems at concrete inputs *)

Lemma secretToCerts_certsToSecret_witness :
  names_distinct (names := fake.names) ∧
  secretToCerts (certsToSecret fake.bundle2 fake.id) = Some fake.bundle2.
Proof.
  split; [exact fake_names_distinct|].
  apply (secretToCerts_certsToSecret fake_names_distinct).
Defined.

Lemma dryrun_write_overwrite_pure_witness :
  let s := fake.writer (fake.fixed fake.bundle) true in
  let w := fake.world fake.taken in
  dryrun s = true ∧
  store (world_of (overwrite s w)) = fake.taken ∧
  trace (overwrite s) w =
    [CallGenerate "svc.ns.svc";
     CallMarshal (Some (certsToSecret fake.bundle fake.id));
     CallWrite (fst (fake.render (Some (certsToSecret fake.bundle fake.id))))].
Proof.
  intros s w. split; [reflexivity|].
  destruct (dryrun_write_overwrite_pure s w fake.client (fake.fixed fake.bundle)
              fake.id fake.buffer (overwrite s))
    as (Hstore & _ & _ & Hok).
  - apply fake_writer_configured.
  - reflexivity.
  - right; reflexivity.
  - split; [exact Hstore|].
    destruct (Hok fake.bundle 1
                (fst (fake.render (Some (certsToSecret fake.bundle fake.id))))
                eq_refl eq_refl) as [Htrace _].
    exact Htrace.
Defined.

Lemma write_conflict_witness :
  let s := fake.writer (fake.fixed fake.bundle2) false in
  let w := fake.world fake.taken in
  dryrun s = false ∧
  fake.holds (store w) fake.id = Some (certsToSecret fake.bundle fake.id) ∧
  ∃ e w',
    write s w = Returned (None, Some (alreadyExistError (Some e))) w' ∧
    fake.holds (store w') fake.id = Some (certsToSecret fake.bundle fake.id).
Proof.
  intros s w. split; [reflexivity|]. split; [reflexivity|].
  destruct (write_conflict s w fake.client (fake.fixed fake.bundle2) fake.id
              fake.buffer fake.holds (certsToSecret fake.bundle fake.id))
    as [Hok _].
  - apply fake_writer_configured.
  - reflexivity.
  - apply fake_client_refuses_existing.
  - reflexivity.
  - destruct (Hok fake.bundle2 1 eq_refl) as (e & w' & Hrun & _ & _ & Hkept & _).
    exists e, w'. split; [exact Hrun | exact Hkept].
Defined.

Lemma read_not_found_witness :
  let s := fake.writer (fake.fixed fake.bundle) false in
  let w := fake.world ∅ in
  dryrun s = false ∧
  fake.holds (store w) fake.id = None ∧
  ∃ e w', read s w = Returned (None, Some (notFoundError (Some e))) w'.
Proof.
  intros s w. split; [reflexivity|]. split; [reflexivity|].
  destruct (read_not_found s w fake.client fake.id fake.holds)
    as (e & w' & Hrun & _).
  - reflexivity.
  - reflexivity.
  - reflexivity.
  - apply fake_client_reports_missing.
  - reflexivity.
  - exists e, w'. exact Hrun.
Defined.

Lemma read_dryrun_witness :
  let s := fake.writer (fake.fixed fake.bundle) true in
  let w := fake.world fake.taken in
  dryrun s = true ∧
  read s w = Returned (None, Some (notFoundError None)) w.
Proof.
  intros s w. split; [reflexivity|].
  exact (proj1 (read_dryrun s w eq_refl)).
Defined.

Lemma produced_records_well_formed_witness :
  names_distinct (names := fake.names) ∧
  core_record fake.id (certsToSecret fake.bundle fake.id).
Proof.
  split; [exact fake_names_distinct|].
  exact (proj1 (produced_records_well_formed
                  (St := gmap (string * string) corev1.Secret)
                  fake_names_distinct)
           fake.bundle fake.id).
Defined.

Lemma errors_pass_through_witness :
  let g := fake.failing (StatusError metav1.StatusReasonAlreadyExists "taken") in
  let s := fake.writer g false in
  let w := fake.world ∅ in
  ∃ w',
    write s w =
      Returned (None, Some (StatusError metav1.StatusReasonAlreadyExists "taken")) w'.
Proof.
  intros g s w.
  destruct (errors_pass_through s w fake.client g fake.id fake.buffer) as [Hgen _].
  - apply fake_writer_configured.
  - destruct (Hgen None _ 1 eq_refl) as (w' & Hrun & _).
    exists w'. exact Hrun.
Defined.

Lemma late_failure_keeps_bundle_witness :
  let s := fake.writer (fake.fixed fake.bundle) false in
  let w := fake.world ∅ in
  ∃ w',
    overwrite s w =
      Returned (Some fake.bundle,
                Some (StatusError metav1.StatusReasonNotFound "not found")) w'.
Proof.
  intros s w.
  destruct (late_failure_keeps_bundle s w fake.client (fake.fixed fake.bundle)
              fake.id fake.buffer fake.bundle 1) as [Hwet _].
  - apply fake_writer_configured.
  - reflexivity.
  - destruct (Hwet eq_refl) as [_ Hupdate].
    exact (Hupdate _ _ eq_refl).
Defined.

(** ** The further properties at concrete inputs *)

Lemma fake_client_keeps_created : keeps_created fake.client fake.holds.
Proof.
  intros st obj st'. simpl. unfold fake.Create.
  destruct (fake.holds st (key_of obj)); [done|].
  intros [= <-]. unfold fake.holds. by rewrite lookup_insert_eq.
Qed.

Lemma fake_client_keeps_updated : keeps_updated fake.client fake.holds.
Proof.
  intros st obj st'. simpl. unfold fake.Update.
  destruct (fake.holds st (key_of obj)); [|done].
  intros [= <-]. unfold fake.holds. by rewrite lookup_insert_eq.
Qed.

Lemma fake_client_returns_held : returns_held fake.client fake.holds.
Proof.
  intros st key obj r Hheld. simpl. unfold fake.Get. rewrite Hheld.
  by eexists.
Qed.


Lemma secretToCerts_ignores_rest_witness :
  secretToCerts
    {| corev1.ObjectMeta := {| metav1.Namespace := "other"; metav1.Name := "x" |};
       corev1.Data :=
         Some (<["tls.crt" := fake.bytes "extra"]>
               {[ "key.pem" := fake.bytes "KEY" ]}) |} =
    secretToCerts
      {| corev1.ObjectMeta := {| metav1.Namespace := "ns"; metav1.Name := "y" |};
         corev1.Data := Some {[ "key.pem" := fake.bytes "KEY" ]} |}.
Proof.
  refine (proj1 (secretToCerts_ignores_rest _ _ _ "tls.crt" _ _ _ _));
    discriminate.
Defined.

Lemma certsToSecret_injective_witness :
  fake.bundle = fake.bundle ∧ fake.id = fake.id.
Proof.
  exact (certsToSecret_injective fake.bundle fake.bundle fake.id fake.id
           fake_names_distinct eq_refl).
Defined.

Lemma NewSecretCertWriter_again_witness :
  let o := {| Client := Some fake.client;
              CertGenerator := None;
              Secret := Some fake.id;
              Writer := None |} in
  ∃ s, NewSecretCertWriter o = (Some s, None) ∧
       NewSecretCertWriter (ops s) = (Some s, None).
Proof.
  intros o. eexists. split; [reflexivity|].
  exact (NewSecretCertWriter_again o _ eq_refl).
Defined.

Lemma panic_only_on_nil_bundle_witness :
  let g := {| generator.Generate := fun _ (n : nat) => ((None, None), S n) |} in
  let s := fake.writer g false in
  ∃ w', write s (fake.world ∅) = Panicked w'.
Proof.
  intros g s.
  destruct (panic_only_on_nil_bundle s (fake.world ∅) fake.client g fake.id
              fake.buffer (fake_writer_configured g false)) as [[_ Hpanic] _].
  apply Hpanic. by exists 1.
Defined.

Lemma persisting_renders_nothing_witness :
  let s := fake.writer (fake.fixed fake.bundle) false in
  let w := fake.world fake.taken in
  sink (world_of (write s w)) = [] ∧ sink (world_of (overwrite s w)) = [].
Proof.
  intros s w.
  destruct (persisting_renders_nothing s w eq_refl) as (_ & Hw & _ & Ho).
  split; [exact Hw | exact Ho].
Defined.

Lemma dryrun_marshal_failure_witness :
  let s := fake.writer (fake.fixed fake.bundle) true in
  let w := fake.world ∅ in
  ∃ w',
    write (imports := fake.broken) s w =
      Returned (Some fake.bundle, Some (errorString "cannot marshal")) w' ∧
    sink w' = [].
Proof.
  intros s w.
  destruct (dryrun_marshal_failure (imports := fake.broken) s w fake.client
              (fake.fixed fake.bundle) fake.id fake.buffer fake.bundle 1
              NilSlice (errorString "cannot marshal")
              (fake_writer_configured _ _) eq_refl eq_refl eq_refl)
    as (w' & Hrun & _ & Hsink & _).
  exists w'. split; [exact Hrun | exact Hsink].
Defined.

Lemma failed_generation_stops_witness :
  let g := fake.failing (errorString "no entropy") in
  let s := fake.writer g true in
  let w := fake.world fake.taken in
  ∃ w',
    overwrite s w = Returned (None, Some (errorString "no entropy")) w' ∧
    store w' = fake.taken ∧ sink w' = [].
Proof.
  intros g s w.
  destruct (failed_generation_stops s w g None (errorString "no entropy") 1
              eq_refl eq_refl)
    as (w' & _ & Hrun & Hstore & Hsink & _).
  exists w'. split; [exact Hrun|]. split; [exact Hstore | exact Hsink].
Defined.

Lemma write_then_read_witness :
  let s := fake.writer (fake.fixed fake.bundle) false in
  let w1 := world_of (write s (fake.world ∅)) in
  ∃ w2, read s w1 = Returned (Some fake.bundle, None) w2.
Proof.
  intros s w1.
  apply (write_then_read s (fake.world ∅) w1 fake.client
           (fake.fixed fake.bundle) fake.id fake.buffer fake.bundle fake.holds
           fake_names_distinct (fake_writer_configured _ _) eq_refl
           fake_client_keeps_created fake_client_returns_held).
  reflexivity.
Defined.

Lemma overwrite_then_read_witness :
  let s := fake.writer (fake.fixed fake.bundle2) false in
  let w1 := world_of (overwrite s (fake.world fake.taken)) in
  ∃ w2, read s w1 = Returned (Some fake.bundle2, None) w2.
Proof.
  intros s w1.
  apply (overwrite_then_read s (fake.world fake.taken) w1 fake.client
           (fake.fixed fake.bundle2) fake.id fake.buffer fake.bundle2 fake.holds
           fake_names_distinct (fake_writer_configured _ _) eq_refl
           fake_client_keeps_updated fake_client_returns_held).
  reflexivity.
Defined.

Lemma write_twice_conflicts_witness :
  let s := fake.writer (fake.fixed fake.bundle) false in
  let w1 := world_of (write s (fake.world ∅)) in
  ∃ e w2,
    write s w1 = Returned (None, Some (alreadyExistError (Some e))) w2 ∧
    fake.holds (store w2) fake.id = Some (certsToSecret fake.bundle fake.id).
Proof.
  intros s w1.
  apply (write_twice_conflicts s (fake.world ∅) w1 fake.client
           (fake.fixed fake.bundle) fake.id fake.buffer fake.bundle fake.bundle 2
           fake.holds (fake_writer_configured _ _) eq_refl
           fake_client_keeps_created fake_client_refuses_existing).
  - reflexivity.
  - reflexivity.
Defined.

Lemma read_result_witness :
  let s := fake.writer (fake.fixed fake.bundle) false in
  let bare := {| corev1.ObjectMeta := {| metav1.Namespace := "ns";
                                         metav1.Name := "webhook-cert" |};
                 corev1.Data := None |} in
  let w := fake.world {[ fake.slot fake.id := bare ]} in
  ∃ w', read s w = Returned (None, None) w'.
Proof.
  intros s bare w.
  destruct (read_result s w fake.client fake.id bare None (store w)
              eq_refl eq_refl eq_refl eq_refl)
    as (a & e & w' & Hrun & Ha & He & _).
  exists w'. rewrite Hrun.
  rewrite (proj2 Ha (or_intror eq_refl)), (proj2 He eq_refl). reflexivity.
Defined.
